(** * Restart tracker of the ECS agent: a shallow embedding

    Package [restart] (ecs-agent/api/container/restart/restart_tracker.go)
    decides whether an exited container is to be restarted and counts the
    restarts that happened.  The Go code is embedded as follows:

    - Go's [int] and [time.Duration] are 64-bit two's-complement integers,
      carried as [Z] with the wrap-around of [+=] written out;
    - [time.Time] is an instant on a nanosecond time line, and the clock
      reading [time.Now()] is an explicit argument [now];
    - a slice is a header (array, offset, length, capacity) into a memory of
      backing arrays, so that two copies of a header share their elements;
    - an exit code [*int], nil or pointing to an [int], is an [option Z];
    - a method with a pointer receiver takes the tracker and, when it
      assigns to it, returns the new tracker. *)

From Stdlib Require Import ZArith Lia DecimalString DecimalPos DecimalZ.
From stdpp Require Import base numbers option list gmap strings.

Local Open Scope Z_scope.

(** ** Go's machine integers *)

Module GoInt.

(** Width of [int] on the 64-bit targets the agent is built for. *)
Definition bits : Z := 64.
Definition minInt : Z := - 2 ^ (bits - 1).
Definition maxInt : Z := 2 ^ (bits - 1) - 1.

(** Two's-complement reduction of an exact result to [int]. *)
Definition wrap (z : Z) : Z := (z + 2 ^ (bits - 1)) mod 2 ^ bits - 2 ^ (bits - 1).

Definition in_range (z : Z) : Prop := minInt <= z <= maxInt.

(** [fmt.Sprintf("%d", z)]: decimal digits, with a leading minus sign for
    a negative number. *)
Definition formatInt (z : Z) : string := NilZero.string_of_int (Z.to_int z).

(** Reading a decimal numeral back (used to state what [formatInt] prints). *)
Definition parseInt (s : string) : option Z :=
  Z.of_int <$> NilZero.int_of_string s.

End GoInt.

(** ** Package time *)

Module GoTime.

(** [time.Duration] is an [int64] count of nanoseconds. *)
Definition Duration := Z.
Definition minDuration : Duration := - 2 ^ 63.
Definition maxDuration : Duration := 2 ^ 63 - 1.

Definition Nanosecond : Duration := 1.
Definition Second : Duration := 1000000000 * Nanosecond.
Definition Minute : Duration := 60 * Second.

(** An instant, in nanoseconds on the time line. *)
Definition Time := Z.

(** [t.Add(d)]. *)
Definition Add (t : Time) (d : Duration) : Time := t + d.

(** [t.Sub(u)]: the duration [t - u]; when it does not fit a [Duration]
    the result is the largest (or the smallest) duration. *)
Definition Sub (t u : Time) : Duration :=
  if t - u <? minDuration then minDuration
  else if maxDuration <? t - u then maxDuration
  else t - u.

(** [time.Since(t)] is [time.Now().Sub(t)]. *)
Definition Since (now t : Time) : Duration := Sub now t.

End GoTime.

(** ** Slices of [int] *)

Module GoSlice.

Definition loc := positive.

(** The backing arrays that are allocated, by address. *)
Abbreviation mem := (gmap loc (list Z)).

(** A slice header.  [s_ptr] is the array the slice points into and the
    index of its first element there; the nil slice has none. *)
Record slice : Type := Slice {
  s_ptr : option (loc * nat);
  s_len : nat;
  s_cap : nat
}.

Definition nil_slice : slice := Slice None 0 0.

(** The header is well-formed in [m]: its array is allocated and holds the
    whole capacity. *)
Definition slice_wf (m : mem) (s : slice) : Prop :=
  match s_ptr s with
  | None => s_len s = 0%nat /\ s_cap s = 0%nat
  | Some (l, off) =>
      match m !! l with
      | Some a => (s_len s <= s_cap s)%nat /\ (off + s_cap s <= length a)%nat
      | None => False
      end
  end.

(** The elements [s[0], ..., s[len(s)-1]] as memory holds them now. *)
Definition slice_elems (m : mem) (s : slice) : list Z :=
  match s_ptr s with
  | None => []
  | Some (l, off) => take (s_len s) (drop off (default [] (m !! l)))
  end.

(** [s[i] = v]; [None] is the run-time panic for an index out of range. *)
Definition slice_store (m : mem) (s : slice) (i : Z) (v : Z) : option mem :=
  if (0 <=? i) && (i <? Z.of_nat (s_len s)) then
    match s_ptr s with
    | None => None
    | Some (l, off) =>
        a ← m !! l;
        Some (<[l := <[(off + Z.to_nat i)%nat := v]> a]> m)
    end
  else None.

(** A literal [[]int{v1, ..., vn}]: a new array and a slice of all of it. *)
Definition slice_lit (m : mem) (vs : list Z) : slice * mem :=
  let l := fresh (dom m) in
  (Slice (Some (l, 0%nat)) (length vs) (length vs), <[l := vs]> m).

(** [append(s, v)].  With room left the element is written behind the
    last one, in place; otherwise the elements move to a new array, whose
    capacity beyond the one needed, [extra], is the run-time's choice. *)
Definition slice_append (extra : nat) (m : mem) (s : slice) (v : Z)
  : slice * mem :=
  if (s_len s <? s_cap s)%nat then
    match s_ptr s with
    | Some (l, off) =>
        (Slice (Some (l, off)) (S (s_len s)) (s_cap s),
         <[l := <[(off + s_len s)%nat := v]> (default [] (m !! l))]> m)
    | None => (s, m) (* a nil slice has no capacity *)
    end
  else
    let l := fresh (dom m) in
    let n := S (s_len s) in
    (Slice (Some (l, 0%nat)) n (n + extra),
     <[l := slice_elems m s ++ v :: replicate extra 0]> m).

End GoSlice.

(** ** Package apicontainerstatus *)

Module apicontainerstatus.

(** Modelled from the spec: the declaration of
    [apicontainerstatus.ContainerStatus] is in ecs-agent/api/container/status,
    which is not among the sources.  The spec gives it as the enumeration
    [{Running, Stopped, ...}] of which only the stopped state matters
    here; [ContainerOther] stands for the remaining values. *)
Inductive ContainerStatus : Type :=
| ContainerRunning
| ContainerStopped
| ContainerOther (tag : nat).

#[global] Instance ContainerStatus_eq_dec : EqDecision ContainerStatus.
Proof. solve_decision. Defined.

End apicontainerstatus.

(** ** Package restart *)

Module restart.
Import GoInt GoTime GoSlice apicontainerstatus.

(** [RestartPolicy] represents a policy that contains key information
    considered when deciding whether or not a container should be
    restarted after it has exited. *)
Record RestartPolicy : Type := mkRestartPolicy {
  Enabled : bool;
  IgnoredExitCodes : slice;
  AttemptResetPeriod : Duration
}.

Record RestartTracker : Type := mkRestartTracker {
  RestartCount : Z;
  restartPolicy : RestartPolicy
}.

(** The composite literal leaves [RestartCount] at its zero value and
    copies the argument struct, header of [IgnoredExitCodes] included. *)
Definition NewRestartTracker (restartPolicy : RestartPolicy) : RestartTracker :=
  {| RestartCount := 0; restartPolicy := restartPolicy |}.

Definition GetRestartCount (rt : RestartTracker) : Z := RestartCount rt.

(** [rt.RestartCount += 1] *)
Definition RecordRestart (rt : RestartTracker) : RestartTracker :=
  {| RestartCount := wrap (RestartCount rt + 1);
     restartPolicy := restartPolicy rt |}.

Definition ignoredMessage (exitCode : Z) : string :=
  "exit code " +:+ formatInt exitCode +:+ " should be ignored".

(** The [range] loop over the ignored codes; [Some r] is its [return r]
    and [None] is falling out of the loop. *)
Fixpoint rangeIgnoredExitCodes (codes : list Z) (exitCode : Z)
  : option (bool * string) :=
  match codes with
  | [] => None
  | ignoredCode :: rest =>
      if ignoredCode =? exitCode
      then Some (false, ignoredMessage exitCode)
      else rangeIgnoredExitCodes rest exitCode
  end.

(** The elements of the tracker's [restartPolicy.IgnoredExitCodes]. *)
Definition ignoredCodes (m : mem) (rt : RestartTracker) : list Z :=
  slice_elems m (IgnoredExitCodes (restartPolicy rt)).

(** [ShouldRestart] returns whether the container should restart and a
    reason string explaining why not.  [m] is the memory the slice of
    ignored codes is read from and [now] the clock reading. *)
Definition ShouldRestart (m : mem) (now : Time) (rt : RestartTracker)
    (exitCode : option Z) (startedAt : Time)
    (desiredStatus : ContainerStatus) : bool * string :=
  if negb (Enabled (restartPolicy rt)) then
    (false, "restart policy is not enabled")
  else if decide (desiredStatus = ContainerStopped) then
    (false, "container's desired status is stopped")
  else
    match exitCode with
    | None => (false, "exit code is nil")
    | Some c =>
        match rangeIgnoredExitCodes (ignoredCodes m rt) c with
        | Some r => r
        | None =>
            if Since now startedAt <? AttemptResetPeriod (restartPolicy rt)
            then (false, "attempt reset period has not elapsed")
            else (true, "")
        end
    end.

(** *** The methods as calls on one tracker *)

Inductive call : Type :=
| CallGetRestartCount
| CallRecordRestart
| CallShouldRestart (now : Time) (exitCode : option Z) (startedAt : Time)
    (desiredStatus : ContainerStatus).

Inductive result : Type :=
| RetCount (n : Z)
| RetUnit
| RetDecision (d : bool * string).

(** One call: the tracker it leaves behind and what it returns. *)
Definition exec (m : mem) (c : call) (rt : RestartTracker)
  : RestartTracker * result :=
  match c with
  | CallGetRestartCount => (rt, RetCount (GetRestartCount rt))
  | CallRecordRestart => (RecordRestart rt, RetUnit)
  | CallShouldRestart now exitCode startedAt desiredStatus =>
      (rt, RetDecision (ShouldRestart m now rt exitCode startedAt desiredStatus))
  end.

(** A sequence of calls, first call first. *)
Fixpoint run (m : mem) (cs : list call) (rt : RestartTracker) : RestartTracker :=
  match cs with
  | [] => rt
  | c :: cs' => run m cs' (fst (exec m c rt))
  end.

Definition is_record (c : call) : bool :=
  match c with CallRecordRestart => true | _ => false end.

(** How many of the calls are [RecordRestart]. *)
Definition records (cs : list call) : Z :=
  Z.of_nat (length (filter (fun c => is_record c = true) cs)).

(** *** What the caller can do to its own policy value afterwards *)

Inductive mutation : Type :=
| SetEnabled (b : bool)                       (* p.Enabled = b *)
| SetAttemptResetPeriod (d : Duration)        (* p.AttemptResetPeriod = d *)
| SetIgnoredExitCodes (s : slice)             (* p.IgnoredExitCodes = s *)
| SetIgnoredExitCodesLit (vs : list Z)        (* p.IgnoredExitCodes = []int{vs} *)
| AppendIgnoredExitCode (extra : nat) (v : Z) (* p.IgnoredExitCodes = append(p.IgnoredExitCodes, v) *)
| StoreIgnoredExitCode (i : Z) (v : Z).       (* p.IgnoredExitCodes[i] = v *)

(** The statement run on the caller's variable [p]; [None] is a panic. *)
Definition mutate (mu : mutation) (p : RestartPolicy) (m : mem)
  : option (RestartPolicy * mem) :=
  match mu with
  | SetEnabled b =>
      Some (mkRestartPolicy b (IgnoredExitCodes p) (AttemptResetPeriod p), m)
  | SetAttemptResetPeriod d =>
      Some (mkRestartPolicy (Enabled p) (IgnoredExitCodes p) d, m)
  | SetIgnoredExitCodes s =>
      Some (mkRestartPolicy (Enabled p) s (AttemptResetPeriod p), m)
  | SetIgnoredExitCodesLit vs =>
      let '(s, m') := slice_lit m vs in
      Some (mkRestartPolicy (Enabled p) s (AttemptResetPeriod p), m')
  | AppendIgnoredExitCode extra v =>
      let '(s, m') := slice_append extra m (IgnoredExitCodes p) v in
      Some (mkRestartPolicy (Enabled p) s (AttemptResetPeriod p), m')
  | StoreIgnoredExitCode i v =>
      m' ← slice_store m (IgnoredExitCodes p) i v;
      Some (p, m')
  end.

(** The mutations that assign to a field of [p] and write no element of an
    array that exists already. *)
Definition is_assignment (mu : mutation) : bool :=
  match mu with
  | SetEnabled _ | SetAttemptResetPeriod _
  | SetIgnoredExitCodes _ | SetIgnoredExitCodesLit _ => true
  | AppendIgnoredExitCode _ _ | StoreIgnoredExitCode _ _ => false
  end.

(** Statements run one after the other. *)
Fixpoint mutates (mus : list mutation) (p : RestartPolicy) (m : mem)
  : option (RestartPolicy * mem) :=
  match mus with
  | [] => Some (p, m)
  | mu :: rest =>
      match mutate mu p m with
      | Some (p1, m1) => mutates rest p1 m1
      | None => None
      end
  end.

(** The cell of an array there is already that the statement writes, if
    it writes one: the array and the index in it.  A store writes the
    element it names, an [append] with room left the cell behind the last
    element; an assignment, a literal and an [append] that moves the
    elements write none. *)
Definition written (mu : mutation) (p : RestartPolicy) (m : mem)
  : option (loc * nat) :=
  match mu with
  | StoreIgnoredExitCode i _ =>
      match s_ptr (IgnoredExitCodes p) with
      | Some (l, off) => Some (l, (off + Z.to_nat i)%nat)
      | None => None
      end
  | AppendIgnoredExitCode _ _ =>
      if (s_len (IgnoredExitCodes p) <? s_cap (IgnoredExitCodes p))%nat then
        match s_ptr (IgnoredExitCodes p) with
        | Some (l, off) => Some (l, (off + s_len (IgnoredExitCodes p))%nat)
        | None => None
        end
      else None
  | _ => None
  end.

(** The cell is one of the elements [s[0], ..., s[len(s)-1]]. *)
Definition views (s : slice) (cell : loc * nat) : bool :=
  match s_ptr s with
  | Some (l, off) =>
      bool_decide (cell.1 = l)
      && (off <=? cell.2)%nat && (cell.2 <? off + s_len s)%nat
  | None => false
  end.

(** None of the statements, run one after the other, writes an element
    of [s]. *)
Fixpoint spares (s : slice) (mus : list mutation) (p : RestartPolicy)
    (m : mem) : bool :=
  match mus with
  | [] => true
  | mu :: rest =>
      match written mu p m with
      | Some cell => negb (views s cell)
      | None => true
      end
      && match mutate mu p m with
         | Some (p1, m1) => spares s rest p1 m1
         | None => true
         end
  end.

(** The reasons [ShouldRestart] gives for not restarting: four literals
    and, when there is an exit code, the message naming it. *)
Definition blockingReasons (exitCode : option Z) : list string :=
  [ "restart policy is not enabled";
    "container's desired status is stopped";
    "exit code is nil" ]
  ++ match exitCode with
     | Some c => [ ignoredMessage c ]
     | None => []
     end
  ++ [ "attempt reset period has not elapsed" ].

End restart.

(** ** The values of the package's unit tests *)

Module fixtures.
Import GoInt GoTime GoSlice apicontainerstatus restart.

(** Memory after [[]int{0}] has been allocated at address 1. *)
Definition mem0 : mem := {[ 1%positive := [0] ]}.
Definition ignored0 : slice := Slice (Some (1%positive, 0%nat)) 1 1.

(** [RestartPolicy{Enabled: e, IgnoredExitCodes: []int{0},
      AttemptResetPeriod: time.Minute}] *)
Definition policy (e : bool) : RestartPolicy := mkRestartPolicy e ignored0 Minute.

(** Some clock reading. *)
Definition now0 : Time := 1700000000 * Second.

(** A tracker as the tests make it, with the policy enabled or not. *)
Definition tracker (e : bool) : RestartTracker := NewRestartTracker (policy e).

(** The largest number of restarts an [int] counts, and one more. *)
Definition manyRestarts : N := 9223372036854775807.
Definition tooManyRestarts : N := 9223372036854775808.

(** Memory after the caller has run [p.IgnoredExitCodes[0] = 7]. *)
Definition mem7 : mem := {[ 1%positive := [7] ]}.

(** A policy that was given no ignored codes, and its tracker. *)
Definition bare : RestartTracker :=
  NewRestartTracker (mkRestartPolicy true nil_slice Minute).

(** Two ways to ignore the exit codes 0 and 1: [[]int{0, 1}] and
    [[]int{1, 0, 1}]. *)
Definition mem01 : mem := {[ 1%positive := [0; 1] ]}.
Definition mem101 : mem := {[ 1%positive := [1; 0; 1] ]}.
Definition tracker01 : RestartTracker :=
  NewRestartTracker
    (mkRestartPolicy true (Slice (Some (1%positive, 0%nat)) 2 2) Minute).
Definition tracker101 : RestartTracker :=
  NewRestartTracker
    (mkRestartPolicy true (Slice (Some (1%positive, 0%nat)) 3 3) Minute).

(** A start time more than 292 years before [now0], as the zero
    [time.Time] is. *)
Definition longAgo : Time := now0 - 2 ^ 64.

(** A start time more than 292 years after [now0]. *)
Definition farAhead : Time := now0 + 2 ^ 64.

(** The test's enabled policy with the smallest duration,
    [time.Duration(math.MinInt64)], as reset period. *)
Definition trackerMin : RestartTracker :=
  NewRestartTracker (mkRestartPolicy true ignored0 minDuration).

(** [p.IgnoredExitCodes[:0]] for the test's policy: the same array, no
    element, room for one. *)
Definition ignored0_empty : slice := Slice (Some (1%positive, 0%nat)) 0 1.

End fixtures.

(** ** The table test of [ShouldRestart] (restart_tracker_test.go) *)

Module restart_test.
Import GoInt GoTime GoSlice apicontainerstatus restart.

(** [rt.restartPolicy = rp], the assignment the test makes before each
    case; the count stays. *)
Definition setRestartPolicy (rt : RestartTracker) (rp : RestartPolicy)
  : RestartTracker :=
  {| RestartCount := RestartCount rt; restartPolicy := rp |}.

Record testCase : Type := mkTestCase {
  name : string;
  rp : RestartPolicy;
  exitCode : Z;
  startedAt : Time;
  desiredStatus : ContainerStatus;
  expected : bool;
  expectedReason : string
}.

(** [RestartPolicy{Enabled: e, IgnoredExitCodes: []int{0},
      AttemptResetPeriod: 1 * time.Minute}]: the literal allocates the
    array of its ignored codes. *)
Definition newPolicy (e : bool) (m : mem) : RestartPolicy * mem :=
  let '(s, m') := slice_lit m [0] in
  (mkRestartPolicy e s (1 * Minute), m').

(** The table.  [built i] is what the [time.Now()] of entry [i] reads. *)
Definition testCases (built : nat -> Time) (m : mem) : list testCase * mem :=
  let '(rp0, m) := newPolicy false m in
  let '(rp1, m) := newPolicy true m in
  let '(rp2, m) := newPolicy true m in
  let '(rp3, m) := newPolicy true m in
  let '(rp4, m) := newPolicy true m in
  let '(rp5, m) := newPolicy true m in
  let '(rp6, m) := newPolicy true m in
  ([ mkTestCase "restart policy disabled" rp0 1
       (Add (built 0%nat) (2 * Minute)) ContainerRunning
       false "restart policy is not enabled";
     mkTestCase "ignored exit code" rp1 0
       (Add (built 1%nat) (2 * Minute)) ContainerRunning
       false "exit code 0 should be ignored";
     mkTestCase "non ignored exit code" rp2 1
       (Add (built 2%nat) (-2 * Minute)) ContainerRunning
       true "";
     mkTestCase "nil exit code" rp3 (-1)
       (Add (built 3%nat) (2 * Minute)) ContainerRunning
       false "exit code is nil";
     mkTestCase "desired status stopped" rp4 1
       (Add (built 4%nat) (2 * Minute)) ContainerStopped
       false "container's desired status is stopped";
     mkTestCase "attempt reset period not elapsed" rp5 1
       (built 5%nat) ContainerRunning
       false "attempt reset period has not elapsed";
     mkTestCase "attempt reset period not elapsed within one second" rp6 1
       (Add (built 6%nat) (- Second * 59)) ContainerRunning
       false "attempt reset period has not elapsed" ],
   m).

(** The two [assert.Equal] of an entry on what [ShouldRestart] returned. *)
Definition asserts (tc : testCase) (d : bool * string) : bool :=
  bool_decide (expected tc = d.1) && bool_decide (expectedReason tc = d.2).

(** The body of the loop for one entry, run when the clock reads [now]:
    the tracker it leaves and whether both assertions hold. *)
Definition runCase (m : mem) (now : Time) (rt : RestartTracker) (tc : testCase)
  : RestartTracker * bool :=
  let rt := setRestartPolicy rt (rp tc) in
  let exitCodeAdjusted :=
    if negb (exitCode tc =? -1) then Some (exitCode tc) else None in
  let '(shouldRestart, reason) :=
    ShouldRestart m now rt exitCodeAdjusted (startedAt tc) (desiredStatus tc) in
  (rt, asserts tc (shouldRestart, reason)).

(** The loop; entry [i] is run when the clock reads [called i]. *)
Fixpoint runCases (m : mem) (called : nat -> Time) (i : nat)
    (rt : RestartTracker) (tcs : list testCase) : list bool :=
  match tcs with
  | [] => []
  | tc :: rest =>
      let '(rt', ok) := runCase m (called i) rt tc in
      ok :: runCases m called (S i) rt' rest
  end.

(** [TestShouldRestart]: for each entry, whether its assertions hold. *)
Definition TestShouldRestart (m : mem) (built called : nat -> Time)
  : list bool :=
  let '(rp, m) := newPolicy false m in
  let rt := NewRestartTracker rp in
  let '(tcs, m) := testCases built m in
  runCases m called 0 rt tcs.

End restart_test.

Import GoInt GoTime GoSlice apicontainerstatus restart.

(** * Properties *)

(** Closed goals about the values of the tests are settled by evaluation. *)
Ltac by_eval :=
  first [ reflexivity | discriminate
        | vm_compute; first [ reflexivity | discriminate | lia | done ]
        | refine (bool_decide_unpack _ _); vm_compute; exact I ].

(** ** Machine integers and time *)

Lemma wrap_in_range z : in_range z -> wrap z = z.
Proof.
  unfold in_range, wrap, minInt, maxInt, bits. intros Hz.
  rewrite Z.mod_small; lia.
Qed.

Lemma wrap_range z : in_range (wrap z).
Proof.
  unfold in_range, wrap, minInt, maxInt, bits.
  pose proof (Z.mod_pos_bound (z + 2 ^ (64 - 1)) (2 ^ 64) ltac:(lia)). lia.
Qed.

Lemma wrap_succ z : wrap (wrap z + 1) = wrap (z + 1).
Proof.
  unfold wrap, bits. f_equal.
  replace ((z + 2 ^ (64 - 1)) mod 2 ^ 64 - 2 ^ (64 - 1) + 1 + 2 ^ (64 - 1))
    with ((z + 2 ^ (64 - 1)) mod 2 ^ 64 + 1) by lia.
  rewrite Zplus_mod_idemp_l. f_equal. lia.
Qed.

Lemma wrap_maxInt : wrap (maxInt + 1) = minInt.
Proof. reflexivity. Qed.

(** [formatInt] prints the decimal numeral of its argument. *)
Lemma parseInt_formatInt z : parseInt (formatInt z) = Some z.
Proof.
  unfold parseInt, formatInt.
  rewrite NilZero.isi.
  - simpl. f_equal. apply DecimalZ.of_to.
  - destruct z; simpl; try discriminate.
    intros [= H]. revert H. apply DecimalPos.Unsigned.to_uint_nonnil.
  - destruct z; simpl; try discriminate.
    intros [= H]. revert H. apply DecimalPos.Unsigned.to_uint_nonnil.
Qed.

Lemma formatInt_inj z1 z2 : formatInt z1 = formatInt z2 -> z1 = z2.
Proof.
  intros H. apply (f_equal parseInt) in H.
  rewrite !parseInt_formatInt in H. congruence.
Qed.

(** Within the range of [time.Duration], [Since] is the exact difference. *)
Lemma Since_exact now t :
  minDuration <= now - t <= maxDuration -> Since now t = now - t.
Proof.
  unfold Since, Sub. intros [Hlo Hhi].
  destruct (Z.ltb_spec (now - t) minDuration); [lia |].
  destruct (Z.ltb_spec maxDuration (now - t)); [lia | reflexivity].
Qed.

Lemma Since_range now t : minDuration <= Since now t <= maxDuration.
Proof.
  unfold Since, Sub.
  destruct (Z.ltb_spec (now - t) minDuration);
    [| destruct (Z.ltb_spec maxDuration (now - t))];
    unfold minDuration, maxDuration in *; lia.
Qed.

Lemma Since_mono now now' t : now <= now' -> Since now t <= Since now' t.
Proof.
  unfold Since, Sub, minDuration, maxDuration. intros Hle.
  repeat match goal with
         | |- context [?a <? ?b] => destruct (Z.ltb_spec a b)
         end; lia.
Qed.

(** Against a bound that is a duration above the smallest one, the clamped
    difference compares as the exact one. *)
Lemma Since_ltb now t k :
  minDuration < k <= maxDuration ->
  (Since now t <? k) = (now - t <? k).
Proof.
  unfold Since, Sub, minDuration, maxDuration. intros Hk.
  destruct (Z.ltb_spec (now - t) (- 2 ^ 63));
    [| destruct (Z.ltb_spec (2 ^ 63 - 1) (now - t))];
    destruct (Z.ltb_spec (now - t) k);
    try match goal with
        | |- (?a <? ?b) = _ => destruct (Z.ltb_spec a b)
        end; first [reflexivity | exfalso; lia].
Qed.

(** ** The loop over the ignored exit codes *)

Lemma rangeIgnoredExitCodes_elem codes c :
  c ∈ codes -> rangeIgnoredExitCodes codes c = Some (false, ignoredMessage c).
Proof.
  induction codes as [| x rest IH]; intros Hin.
  - by apply elem_of_nil in Hin.
  - simpl. destruct (Z.eqb_spec x c) as [_ | Hne]; [done |].
    apply elem_of_cons in Hin as [-> | Hin]; [done | by apply IH].
Qed.

Lemma rangeIgnoredExitCodes_not_elem codes c :
  c ∉ codes -> rangeIgnoredExitCodes codes c = None.
Proof.
  induction codes as [| x rest IH]; intros Hnin; [done |].
  apply not_elem_of_cons in Hnin as [Hne Hnin]. simpl.
  destruct (Z.eqb_spec x c) as [-> | _]; [done | by apply IH].
Qed.

(** The loop only looks at membership. *)
Lemma rangeIgnoredExitCodes_decide codes c :
  rangeIgnoredExitCodes codes c =
    if decide (c ∈ codes) then Some (false, ignoredMessage c) else None.
Proof.
  case_decide; auto using rangeIgnoredExitCodes_elem,
    rangeIgnoredExitCodes_not_elem.
Qed.

Lemma ignoredMessage_nonempty c : ignoredMessage c ≠ "".
Proof. discriminate. Qed.

(** ** The decision *)

Section Decision.

Variables (m : mem) (now : Time) (rt : RestartTracker) (startedAt : Time).

(** Past the first three checks the result is decided by the loop and the
    reset period. *)
Lemma ShouldRestart_eligible c desiredStatus :
  Enabled (restartPolicy rt) = true ->
  desiredStatus ≠ ContainerStopped ->
  ShouldRestart m now rt (Some c) startedAt desiredStatus =
    if decide (c ∈ ignoredCodes m rt) then (false, ignoredMessage c)
    else if Since now startedAt <? AttemptResetPeriod (restartPolicy rt)
         then (false, "attempt reset period has not elapsed")
         else (true, "").
Proof.
  intros Hen Hds. unfold ShouldRestart. rewrite Hen. simpl.
  destruct (decide (desiredStatus = ContainerStopped)); [done |].
  rewrite rangeIgnoredExitCodes_decide.
  by case_decide.
Qed.

(** In terms of [time.Since(startedAt)], the duration the code compares:
    strictly below the reset period the call is refused, at or above it
    the restart is approved. *)
Lemma ShouldRestart_since_period c desiredStatus :
  Enabled (restartPolicy rt) = true ->
  desiredStatus ≠ ContainerStopped ->
  c ∉ ignoredCodes m rt ->
  (Since now startedAt < AttemptResetPeriod (restartPolicy rt) ->
     ShouldRestart m now rt (Some c) startedAt desiredStatus
       = (false, "attempt reset period has not elapsed"))
  /\ (Since now startedAt >= AttemptResetPeriod (restartPolicy rt) ->
     ShouldRestart m now rt (Some c) startedAt desiredStatus = (true, "")).
Proof.
  intros Hen Hds Hnin.
  rewrite (ShouldRestart_eligible c desiredStatus Hen Hds).
  destruct (decide (c ∈ ignoredCodes m rt)); [done |].
  destruct (Z.ltb_spec (Since now startedAt)
              (AttemptResetPeriod (restartPolicy rt))); split; intros; lia || done.
Qed.

(** C1, as the code has it: with the policy enabled, its reset period a
    [time.Duration], the desired status not stopped and an exit code that
    is not ignored, [ShouldRestart] approves with the empty reason when
    the elapsed time [now - startedAt] is greater than or equal to the
    reset period, equality included; it refuses with "attempt reset
    period has not elapsed" when the elapsed time is strictly less than
    the reset period and the reset period is above the smallest duration;
    with the smallest duration as reset period it approves whatever the
    start time is. *)
Theorem ShouldRestart_reset_period c desiredStatus :
  Enabled (restartPolicy rt) = true ->
  desiredStatus ≠ ContainerStopped ->
  c ∉ ignoredCodes m rt ->
  minDuration <= AttemptResetPeriod (restartPolicy rt) <= maxDuration ->
  (minDuration < AttemptResetPeriod (restartPolicy rt) ->
   now - startedAt < AttemptResetPeriod (restartPolicy rt) ->
     ShouldRestart m now rt (Some c) startedAt desiredStatus
       = (false, "attempt reset period has not elapsed"))
  /\ (now - startedAt >= AttemptResetPeriod (restartPolicy rt) ->
     ShouldRestart m now rt (Some c) startedAt desiredStatus = (true, ""))
  /\ (now - startedAt = AttemptResetPeriod (restartPolicy rt) ->
     ShouldRestart m now rt (Some c) startedAt desiredStatus = (true, ""))
  /\ (AttemptResetPeriod (restartPolicy rt) = minDuration ->
     ShouldRestart m now rt (Some c) startedAt desiredStatus = (true, "")).
Proof.
  intros Hen Hds Hnin Hdur.
  rewrite (ShouldRestart_eligible c desiredStatus Hen Hds).
  destruct (decide (c ∈ ignoredCodes m rt)); [done |].
  pose proof (Since_range now startedAt) as Hs.
  assert (Hge : AttemptResetPeriod (restartPolicy rt) <= now - startedAt ->
                (Since now startedAt <? AttemptResetPeriod (restartPolicy rt))
                = false).
  { intros Hle. apply Z.ltb_ge. revert Hs. unfold Since, Sub.
    destruct (Z.ltb_spec (now - startedAt) minDuration);
      [| destruct (Z.ltb_spec maxDuration (now - startedAt))]; lia. }
  split; [| split; [| split]].
  - intros Hmin Hlt. rewrite Since_ltb by lia.
    by destruct (Z.ltb_spec (now - startedAt)
                   (AttemptResetPeriod (restartPolicy rt))); [| lia].
  - intros Hle. rewrite Hge by lia. done.
  - intros Heq. rewrite Hge by lia. done.
  - intros Heq. rewrite Heq.
    by destruct (Z.ltb_spec (Since now startedAt) minDuration); [lia |].
Qed.

(** C2: a tracker whose policy is not enabled refuses with "restart policy
    is not enabled", whatever the exit code, the start time, the desired
    status and the other fields of the policy are. *)
Theorem ShouldRestart_not_enabled exitCode desiredStatus :
  Enabled (restartPolicy rt) = false ->
  ShouldRestart m now rt exitCode startedAt desiredStatus
    = (false, "restart policy is not enabled").
Proof. intros Hen. unfold ShouldRestart. by rewrite Hen. Qed.

(** C3: with the policy enabled and the desired status stopped the answer
    is "container's desired status is stopped" for every exit code, absent,
    ignored or not, and every start time: the check comes before those on
    the exit code and on the reset period. *)
Theorem ShouldRestart_desired_stopped exitCode :
  Enabled (restartPolicy rt) = true ->
  ShouldRestart m now rt exitCode startedAt ContainerStopped
    = (false, "container's desired status is stopped").
Proof.
  intros Hen. unfold ShouldRestart. rewrite Hen. simpl.
  by destruct (decide (ContainerStopped = ContainerStopped)).
Qed.

(** C4: with the policy enabled and the desired status not stopped, an
    absent exit code gives the decision (false, "exit code is nil"); the
    call returns this pair like any other decision. *)
Theorem ShouldRestart_nil_exit_code desiredStatus :
  Enabled (restartPolicy rt) = true ->
  desiredStatus ≠ ContainerStopped ->
  ShouldRestart m now rt None startedAt desiredStatus
    = (false, "exit code is nil").
Proof.
  intros Hen Hds. unfold ShouldRestart. rewrite Hen. simpl.
  by destruct (decide (desiredStatus = ContainerStopped)).
Qed.

(** C5: with the policy enabled and the desired status not stopped, an exit
    code [c] that occurs anywhere among the ignored codes gives
    (false, "exit code c should be ignored"), where [c] is printed as its
    decimal numeral. *)
Theorem ShouldRestart_ignored_exit_code c desiredStatus :
  Enabled (restartPolicy rt) = true ->
  desiredStatus ≠ ContainerStopped ->
  c ∈ ignoredCodes m rt ->
  ShouldRestart m now rt (Some c) startedAt desiredStatus
    = (false, "exit code " +:+ formatInt c +:+ " should be ignored")
  /\ parseInt (formatInt c) = Some c.
Proof.
  intros Hen Hds Hin. split; [| apply parseInt_formatInt].
  rewrite (ShouldRestart_eligible c desiredStatus Hen Hds).
  by destruct (decide (c ∈ ignoredCodes m rt)).
Qed.

(** C9: [ShouldRestart] returns true exactly when the reason it returns is
    empty: an approval carries the empty string and a refusal one of the
    five reasons, none of which is empty. *)
Theorem ShouldRestart_reason exitCode desiredStatus :
  let d := ShouldRestart m now rt exitCode startedAt desiredStatus in
  (d.1 = true <-> d.2 = "")
  /\ (d = (true, "")
      \/ (d.1 = false /\ d.2 ≠ "" /\ d.2 ∈ blockingReasons exitCode)).
Proof.
  unfold ShouldRestart, blockingReasons.
  destruct (Enabled (restartPolicy rt)); simpl;
    [| split; [split; discriminate | right; set_solver]].
  destruct (decide (desiredStatus = ContainerStopped));
    [split; [split; discriminate | right; set_solver] |].
  destruct exitCode as [c |];
    [| split; [split; discriminate | right; set_solver]].
  rewrite rangeIgnoredExitCodes_decide.
  case_decide; [split; [split; discriminate | right; set_solver] |].
  destruct (_ <? _); split; try (split; done || discriminate);
    [right; set_solver | by left].
Qed.

End Decision.

(** C10: the decision does not depend on the restart count: two trackers
    with the same policy, whatever their counts, get the same answer to the
    same call at the same time. *)
Theorem ShouldRestart_count_independent (m : mem) (now : Time)
    (rt1 rt2 : RestartTracker) (exitCode : option Z) (startedAt : Time)
    (desiredStatus : ContainerStatus) :
  restartPolicy rt1 = restartPolicy rt2 ->
  ShouldRestart m now rt1 exitCode startedAt desiredStatus
    = ShouldRestart m now rt2 exitCode startedAt desiredStatus.
Proof.
  intros Hp. unfold ShouldRestart, ignoredCodes. by rewrite Hp.
Qed.

(** ** The restart count *)

Lemma RecordRestart_policy rt : restartPolicy (RecordRestart rt) = restartPolicy rt.
Proof. reflexivity. Qed.

Lemma RecordRestart_count rt :
  in_range (RestartCount rt) -> RestartCount rt < maxInt ->
  GetRestartCount (RecordRestart rt) = GetRestartCount rt + 1.
Proof.
  intros Hr Hlt. unfold GetRestartCount. simpl. apply wrap_in_range.
  unfold in_range, minInt, maxInt, bits in *. lia.
Qed.

Lemma RecordRestart_in_range rt : in_range (RestartCount (RecordRestart rt)).
Proof. apply wrap_range. Qed.

(** [n] calls of [RecordRestart] add [n] modulo the width of [int]. *)
Lemma RecordRestart_iter (n : N) rt :
  in_range (RestartCount rt) ->
  RestartCount (N.iter n RecordRestart rt) = wrap (RestartCount rt + Z.of_N n).
Proof.
  intros Hr. induction n as [| n IH] using N.peano_ind.
  - simpl. rewrite Z.add_0_r. symmetry. by apply wrap_in_range.
  - rewrite N.iter_succ. cbn [RecordRestart RestartCount].
    rewrite IH, wrap_succ. f_equal. lia.
Qed.

Lemma NewRestartTracker_in_range p : in_range (RestartCount (NewRestartTracker p)).
Proof. unfold in_range, minInt, maxInt, bits. simpl. lia. Qed.

(** C6, as the code has it: [RecordRestart] adds exactly one to a count
    below the largest [int], so [n] calls on a new tracker leave the count
    at [n] for every [n] up to [maxInt]. *)
Theorem RecordRestart_n_times (p : RestartPolicy) (n : N) :
  Z.of_N n <= maxInt ->
  GetRestartCount (NewRestartTracker p) = 0
  /\ GetRestartCount (N.iter n RecordRestart (NewRestartTracker p)) = Z.of_N n
  /\ (Z.of_N n < maxInt ->
      GetRestartCount (RecordRestart (N.iter n RecordRestart (NewRestartTracker p)))
        = Z.of_N n + 1).
Proof.
  intros Hn.
  assert (Hc : GetRestartCount (N.iter n RecordRestart (NewRestartTracker p))
               = Z.of_N n).
  { unfold GetRestartCount.
    rewrite RecordRestart_iter by apply NewRestartTracker_in_range.
    simpl. apply wrap_in_range. unfold in_range, minInt, maxInt, bits in *. lia. }
  split; [reflexivity |]. split; [exact Hc |]. intros Hlt.
  rewrite RecordRestart_count; unfold GetRestartCount in *; rewrite ?Hc; [done | | done].
  unfold in_range, minInt, maxInt, bits in *. lia.
Qed.

(** *** Calls and runs *)

Lemma exec_not_record m c rt : is_record c = false -> (exec m c rt).1 = rt.
Proof. by destruct c. Qed.

Lemma exec_policy m c rt : restartPolicy (exec m c rt).1 = restartPolicy rt.
Proof. by destruct c. Qed.

Lemma exec_in_range m c rt :
  in_range (RestartCount rt) -> in_range (RestartCount (exec m c rt).1).
Proof. destruct c; simpl; auto using wrap_range. Qed.

Lemma records_cons c cs :
  records (c :: cs) = (if is_record c then 1 else 0) + records cs.
Proof.
  unfold records. rewrite filter_cons.
  destruct (is_record c) eqn:E; case_decide; try done; simpl length; lia.
Qed.

Lemma records_nonneg cs : 0 <= records cs.
Proof. unfold records. lia. Qed.

(** Along a run that stays within [int] the count is the count at the
    start plus the number of [RecordRestart] calls made. *)
Lemma run_count m cs : forall rt,
  in_range (RestartCount rt) ->
  RestartCount rt + records cs <= maxInt ->
  RestartCount (run m cs rt) = RestartCount rt + records cs.
Proof.
  induction cs as [| c cs IH]; intros rt Hr Hle.
  - unfold records. simpl. lia.
  - rewrite records_cons in Hle |- *. pose proof (records_nonneg cs).
    cbn [run]. rewrite IH.
    + destruct c; cbn [exec fst RecordRestart RestartCount is_record] in *;
        try lia.
      rewrite wrap_in_range; [lia |].
      unfold in_range, minInt, maxInt, bits in *. lia.
    + by apply exec_in_range.
    + destruct c; cbn [exec fst RecordRestart RestartCount is_record] in *;
        try lia.
      rewrite wrap_in_range; [lia |].
      unfold in_range, minInt, maxInt, bits in *. lia.
Qed.

Lemma run_policy m cs : forall rt, restartPolicy (run m cs rt) = restartPolicy rt.
Proof.
  induction cs as [| c cs IH]; intros rt; [done |].
  simpl. by rewrite IH, exec_policy.
Qed.

(** C7, as the code has it: [ShouldRestart] and [GetRestartCount] return
    the tracker as they found it; no call changes the policy; only
    [RecordRestart] changes the count, and it raises a count below the
    largest [int] by one, so that over a run of calls that stays within
    [int] the count never falls: it is the starting count plus the
    restarts recorded. *)
Theorem restart_count_frame (m : mem) (c : call) (cs : list call)
    (rt : RestartTracker) :
  in_range (RestartCount rt) ->
  (exec m CallGetRestartCount rt).1 = rt
  /\ (forall now exitCode startedAt desiredStatus,
        (exec m (CallShouldRestart now exitCode startedAt desiredStatus) rt).1
          = rt)
  /\ restartPolicy (exec m c rt).1 = restartPolicy rt
  /\ (RestartCount (exec m c rt).1 ≠ RestartCount rt -> c = CallRecordRestart)
  /\ (RestartCount rt < maxInt ->
      RestartCount (exec m CallRecordRestart rt).1 = RestartCount rt + 1
      /\ RestartCount rt <= RestartCount (exec m c rt).1)
  /\ (RestartCount rt + records cs <= maxInt ->
      RestartCount (run m cs rt) = RestartCount rt + records cs
      /\ RestartCount rt <= RestartCount (run m cs rt))
  /\ restartPolicy (run m cs rt) = restartPolicy rt.
Proof.
  intros Hr.
  assert (Hone : RestartCount rt < maxInt ->
                 wrap (RestartCount rt + 1) = RestartCount rt + 1).
  { intros Hlt. apply wrap_in_range.
    unfold in_range, minInt, maxInt, bits in *. lia. }
  split; [done |]. split; [done |]. split; [apply exec_policy |].
  split; [destruct c; simpl; congruence |]. split; [| split].
  - intros Hlt. split; [by apply Hone |].
    destruct c; simpl; rewrite ?Hone by done; lia.
  - intros Hle. rewrite run_count by done.
    pose proof (records_nonneg cs). split; [done | lia].
  - apply run_policy.
Qed.

(** ** Construction and the caller's policy value *)

Lemma fresh_not_allocated (m : mem) l : is_Some (m !! l) -> fresh (dom m) ≠ l.
Proof.
  intros Hl Heq. apply (is_fresh (dom m)). rewrite Heq. by apply elem_of_dom.
Qed.

Lemma slice_wf_allocated (m : mem) s l off :
  slice_wf m s -> s_ptr s = Some (l, off) -> is_Some (m !! l).
Proof.
  unfold slice_wf. intros Hwf Hp. rewrite Hp in Hwf.
  destruct (m !! l); [eauto | done].
Qed.

(** Allocation leaves the elements of a well-formed slice alone. *)
Lemma slice_elems_alloc (m : mem) s a :
  slice_wf m s ->
  slice_elems (<[fresh (dom m) := a]> m) s = slice_elems m s.
Proof.
  intros Hwf. unfold slice_elems.
  destruct (s_ptr s) as [[l off] |] eqn:Hp; [| done].
  rewrite lookup_insert_ne; [done |].
  apply fresh_not_allocated. by eapply slice_wf_allocated.
Qed.

(** A write behind the last element is not seen through the slice. *)
Lemma slice_elems_store_behind (m : mem) s l off v :
  s_ptr s = Some (l, off) ->
  slice_elems (<[l := <[(off + s_len s)%nat := v]> (default [] (m !! l))]> m) s
    = slice_elems m s.
Proof.
  intros Hp. unfold slice_elems. rewrite Hp, lookup_insert_eq. simpl.
  rewrite drop_insert_ge by lia. rewrite take_insert_ge by lia. done.
Qed.

(** A write through the slice is seen through every copy of its header. *)
Lemma slice_elems_store (m m' : mem) s i v :
  slice_store m s i v = Some m' ->
  slice_elems m' s = <[Z.to_nat i := v]> (slice_elems m s).
Proof.
  unfold slice_store, slice_elems. intros Hst.
  destruct (andb _ _) eqn:Hi; [| done].
  apply andb_prop in Hi as [Hlo Hhi].
  apply Z.leb_le in Hlo. apply Z.ltb_lt in Hhi.
  destruct (s_ptr s) as [[l off] |]; [| done].
  destruct (m !! l) as [a |] eqn:Ha; simpl in Hst; [| done].
  injection Hst as <-. rewrite lookup_insert_eq. simpl.
  rewrite drop_insert_ge by lia. rewrite take_insert_lt by lia.
  f_equal. lia.
Qed.

(** The decision reads memory only through the ignored codes. *)
Lemma ShouldRestart_mem m m' now rt exitCode startedAt desiredStatus :
  ignoredCodes m' rt = ignoredCodes m rt ->
  ShouldRestart m' now rt exitCode startedAt desiredStatus
    = ShouldRestart m now rt exitCode startedAt desiredStatus.
Proof.
  intros He. unfold ShouldRestart.
  destruct (negb _); [done |]. case_decide; [done |].
  destruct exitCode; [| done]. by rewrite He.
Qed.

(** Allocation keeps a well-formed slice well-formed. *)
Lemma slice_wf_alloc (m : mem) s a :
  slice_wf m s -> slice_wf (<[fresh (dom m) := a]> m) s.
Proof.
  intros Hwf. pose proof (slice_wf_allocated m s) as Hal.
  unfold slice_wf in *.
  destruct (s_ptr s) as [[l off] |] eqn:Hp; [| done].
  rewrite lookup_insert_ne; [done |].
  apply fresh_not_allocated. by eapply Hal.
Qed.

(** What a statement does to the arrays there are: each keeps its length
    and every cell but the one the statement writes. *)
Lemma mutate_frame mu p (m : mem) p1 m1 l a :
  mutate mu p m = Some (p1, m1) ->
  m !! l = Some a ->
  exists a', m1 !! l = Some a'
    /\ length a' = length a
    /\ forall j, written mu p m ≠ Some (l, j) -> a' !! j = a !! j.
Proof.
  intros Hmu Hl.
  assert (Hfresh : forall vs, <[fresh (dom m) := vs]> m !! l = Some a).
  { intros vs. rewrite lookup_insert_ne; [done |].
    apply fresh_not_allocated. by rewrite Hl. }
  destruct mu as [b | d | s | vs | extra v | i v]; simpl in Hmu.
  - injection Hmu as <- <-. by exists a.
  - injection Hmu as <- <-. by exists a.
  - injection Hmu as <- <-. by exists a.
  - injection Hmu as <- <-. exists a. by rewrite Hfresh.
  - unfold slice_append in Hmu. simpl.
    destruct (s_len (IgnoredExitCodes p) <? s_cap (IgnoredExitCodes p))%nat.
    + destruct (s_ptr (IgnoredExitCodes p)) as [[l0 off] |];
        injection Hmu as <- <-; [| by exists a].
      destruct (decide (l0 = l)) as [-> | Hne].
      * rewrite Hl. simpl. eexists. rewrite lookup_insert_eq.
        split; [done |]. split; [apply length_insert |].
        intros j Hj. apply list_lookup_insert_ne. intros <-. by apply Hj.
      * exists a. by rewrite lookup_insert_ne.
    + injection Hmu as <- <-. exists a. by rewrite Hfresh.
  - unfold slice_store in Hmu. cbn [written].
    destruct (andb _ _); [| done].
    destruct (s_ptr (IgnoredExitCodes p)) as [[l0 off] |]; [| done].
    destruct (m !! l0) as [a0 |] eqn:Hl0; simpl in Hmu; [| done].
    injection Hmu as <- <-.
    destruct (decide (l0 = l)) as [-> | Hne].
    + rewrite Hl in Hl0. injection Hl0 as <-.
      eexists. rewrite lookup_insert_eq.
      split; [done |]. split; [apply length_insert |].
      intros j Hj. apply list_lookup_insert_ne. intros <-. by apply Hj.
    + exists a. by rewrite lookup_insert_ne.
Qed.

(** A statement that writes no element of a slice leaves the slice as it
    was. *)
Lemma spared_slice mu p (m : mem) p1 m1 s :
  slice_wf m s ->
  mutate mu p m = Some (p1, m1) ->
  (forall cell, written mu p m = Some cell -> views s cell = false) ->
  slice_wf m1 s /\ slice_elems m1 s = slice_elems m s.
Proof.
  intros Hwf Hmu Hview. unfold slice_wf, slice_elems, views in *.
  destruct (s_ptr s) as [[l off] |]; [| done].
  destruct (m !! l) as [a |] eqn:Hl; [| done].
  destruct (mutate_frame mu p m p1 m1 l a Hmu Hl) as (a' & Hl' & Hlen & Hsame).
  rewrite Hl'. split; [lia |]. simpl. apply list_eq. intros i.
  destruct (decide (i < s_len s)%nat) as [Hi | Hi].
  - rewrite !lookup_take_lt, !lookup_drop by done. apply Hsame.
    intros Hw. specialize (Hview _ Hw). simpl in Hview.
    rewrite bool_decide_eq_true_2 in Hview by done. simpl in Hview.
    apply andb_false_iff in Hview as [Hv | Hv];
      [apply Nat.leb_gt in Hv | apply Nat.ltb_ge in Hv]; lia.
  - by rewrite !lookup_take_ge by lia.
Qed.

Lemma spares_slice mus : forall p (m : mem) p' m' s,
  slice_wf m s ->
  mutates mus p m = Some (p', m') ->
  spares s mus p m = true ->
  slice_elems m' s = slice_elems m s.
Proof.
  induction mus as [| mu mus IH]; intros p m p' m' s Hwf Hmus Hsp.
  - by injection Hmus as <- <-.
  - simpl in Hmus, Hsp. apply andb_prop in Hsp as [Hmu Hsp].
    destruct (mutate mu p m) as [[p1 m1] |] eqn:E; [| done].
    destruct (spared_slice mu p m p1 m1 s Hwf E) as [Hwf1 He1].
    { intros cell Hw. rewrite Hw in Hmu. by apply negb_true_iff. }
    rewrite <- He1. by eapply IH.
Qed.

(** Assignments write no element. *)
Lemma spares_assignments s mus : forall p (m : mem),
  forallb is_assignment mus = true -> spares s mus p m = true.
Proof.
  induction mus as [| mu mus IH]; intros p m Has; [done |].
  simpl in Has. apply andb_prop in Has as [Hmu Has]. simpl.
  replace (written mu p m) with (@None (loc * nat)) by (by destruct mu).
  simpl. destruct (mutate mu p m) as [[p1 m1] |]; [by apply IH | done].
Qed.

(** An [append] to a slice writes none of its elements. *)
Lemma spares_append p (m : mem) extra v :
  spares (IgnoredExitCodes p) [AppendIgnoredExitCode extra v] p m = true.
Proof.
  cbn [spares written]. apply andb_true_intro. split.
  - destruct (_ <? _)%nat; [| done].
    unfold views. destruct (s_ptr (IgnoredExitCodes p)) as [[l off] |]; [| done].
    simpl. apply negb_true_iff, andb_false_iff. right.
    apply Nat.ltb_ge. lia.
  - by destruct (mutate _ p m) as [[p1 m1] |].
Qed.

(** C8, as the code has it: [NewRestartTracker] starts the count at zero
    and stores a copy of the policy struct, which shares the array of the
    ignored codes with the caller's value.  Whatever the caller runs on
    its value afterwards -- assignments to its fields, new literals,
    appends, stores, in any number and order -- changes neither the
    ignored codes the tracker reads nor any answer of [ShouldRestart] as
    long as none of these statements writes one of the elements of the
    slice that was passed in.  Assignments never do, and neither does an
    [append] made to the slice that was passed in. *)
Theorem NewRestartTracker_copies (p : RestartPolicy) (m : mem) :
  slice_wf m (IgnoredExitCodes p) ->
  let rt := NewRestartTracker p in
  GetRestartCount rt = 0
  /\ restartPolicy rt = p
  /\ (forall mus p' m',
        mutates mus p m = Some (p', m') ->
        spares (IgnoredExitCodes p) mus p m = true ->
        ignoredCodes m' rt = ignoredCodes m rt
        /\ forall now exitCode startedAt desiredStatus,
             ShouldRestart m' now rt exitCode startedAt desiredStatus
               = ShouldRestart m now rt exitCode startedAt desiredStatus)
  /\ (forall mus,
        forallb is_assignment mus = true ->
        spares (IgnoredExitCodes p) mus p m = true)
  /\ (forall extra v,
        spares (IgnoredExitCodes p) [AppendIgnoredExitCode extra v] p m = true).
Proof.
  intros Hwf rt. split; [done |]. split; [done |]. split; [| split].
  - intros mus p' m' Hmus Hsp.
    assert (He : ignoredCodes m' rt = ignoredCodes m rt)
      by (unfold ignoredCodes; simpl; by eapply spares_slice).
    split; [exact He |]. intros. by apply ShouldRestart_mem.
  - intros mus Has. by apply spares_assignments.
  - intros extra v. apply spares_append.
Qed.

(** ** The claims that fail as stated *)

Import fixtures.

(** Counterexample to C1: the reset period is the smallest duration and
    the container is said to have started more than 292 years after the
    clock reading.  The elapsed time is below the reset period, yet
    [time.Since] stops at the smallest duration, which is not below the
    period, and the restart is approved. *)
Lemma ShouldRestart_smallest_period :
  Enabled (restartPolicy trackerMin) = true
  /\ ContainerRunning ≠ ContainerStopped
  /\ (1 ∉ ignoredCodes mem0 trackerMin)
  /\ now0 - farAhead < AttemptResetPeriod (restartPolicy trackerMin)
  /\ Since now0 farAhead = minDuration
  /\ ShouldRestart mem0 now0 trackerMin (Some 1) farAhead ContainerRunning
     = (true, "")
  /\ ShouldRestart mem0 now0 trackerMin (Some 1) farAhead ContainerRunning
     ≠ (false, "attempt reset period has not elapsed").
Proof. repeat split; by_eval. Qed.

(** Counterexample to C6: the 2^63-th increment overflows [int]; after
    2^63 calls the count is -2^63. *)
Lemma RecordRestart_overflow :
  GetRestartCount (N.iter tooManyRestarts RecordRestart (tracker false))
    = -9223372036854775808
  /\ GetRestartCount (N.iter tooManyRestarts RecordRestart (tracker false))
    ≠ Z.of_N tooManyRestarts.
Proof.
  unfold GetRestartCount.
  rewrite RecordRestart_iter by apply NewRestartTracker_in_range.
  split; [reflexivity | discriminate].
Qed.

(** Counterexample to C7: a tracker that has recorded 2^63 - 1 restarts
    holds the largest [int]; the next [RecordRestart] lowers the count. *)
Lemma RecordRestart_decreases :
  GetRestartCount (N.iter manyRestarts RecordRestart (tracker false)) = maxInt
  /\ GetRestartCount
       (RecordRestart (N.iter manyRestarts RecordRestart (tracker false)))
     < GetRestartCount (N.iter manyRestarts RecordRestart (tracker false)).
Proof.
  unfold GetRestartCount. cbn [RecordRestart RestartCount].
  rewrite RecordRestart_iter by apply NewRestartTracker_in_range.
  split; reflexivity.
Qed.

(** Counterexample to C8: the tracker is made from a policy that ignores
    exit code 0; the caller then stores 7 into the first element of its
    own [IgnoredExitCodes].  The tracker, untouched, answered "ignored" for
    exit code 0 before the store and approves the restart after it. *)
Lemma NewRestartTracker_shares_array :
  slice_wf mem0 (IgnoredExitCodes (policy true))
  /\ mutate (StoreIgnoredExitCode 0 7) (policy true) mem0
       = Some (policy true, mem7)
  /\ ShouldRestart mem0 now0 (NewRestartTracker (policy true)) (Some 0)
       (Add now0 (- (2 * Minute))) ContainerRunning
       = (false, "exit code 0 should be ignored")
  /\ ShouldRestart mem7 now0 (NewRestartTracker (policy true)) (Some 0)
       (Add now0 (- (2 * Minute))) ContainerRunning
       = (true, "")
  /\ ignoredCodes mem0 (NewRestartTracker (policy true)) = [0]
  /\ ignoredCodes mem7 (NewRestartTracker (policy true)) = [7].
Proof.
  split; [by vm_compute |]. repeat split; reflexivity.
Qed.

(** No store is needed for a write into the shared array: after
    [p.IgnoredExitCodes = p.IgnoredExitCodes[:0]] an [append] has room
    and writes the first element, which the tracker reads. *)
Example reslice_append_overwrites :
  spares (IgnoredExitCodes (policy true))
    [ SetIgnoredExitCodes ignored0_empty; AppendIgnoredExitCode 0 7 ]
    (policy true) mem0 = false
  /\ mutates [ SetIgnoredExitCodes ignored0_empty; AppendIgnoredExitCode 0 7 ]
       (policy true) mem0
     = Some (mkRestartPolicy true ignored0 Minute, mem7)
  /\ ShouldRestart mem7 now0 (tracker true) (Some 0) longAgo ContainerRunning
     = (true, "").
Proof. repeat split. Qed.

(** ** The decision in terms of the exact difference of the instants *)

(** When [now - startedAt] fits a [time.Duration], the comparison of the
    decision is the one on that difference. *)
Lemma ShouldRestart_exact_difference m now rt c startedAt desiredStatus :
  Enabled (restartPolicy rt) = true ->
  desiredStatus ≠ ContainerStopped ->
  c ∉ ignoredCodes m rt ->
  minDuration <= now - startedAt <= maxDuration ->
  ShouldRestart m now rt (Some c) startedAt desiredStatus =
    if now - startedAt <? AttemptResetPeriod (restartPolicy rt)
    then (false, "attempt reset period has not elapsed")
    else (true, "").
Proof.
  intros Hen Hds Hnin Hfit.
  rewrite (ShouldRestart_eligible m now rt startedAt c desiredStatus Hen Hds).
  case_decide; [done |]. by rewrite Since_exact.
Qed.

(** ** The cases of TestShouldRestart *)

Example test_restart_policy_disabled :
  ShouldRestart mem0 now0 (tracker false) (Some 1) (Add now0 (2 * Minute))
    ContainerRunning = (false, "restart policy is not enabled").
Proof. reflexivity. Qed.

Example test_ignored_exit_code :
  ShouldRestart mem0 now0 (tracker true) (Some 0) (Add now0 (2 * Minute))
    ContainerRunning = (false, "exit code 0 should be ignored").
Proof. reflexivity. Qed.

Example test_non_ignored_exit_code :
  ShouldRestart mem0 now0 (tracker true) (Some 1) (Add now0 (- (2 * Minute)))
    ContainerRunning = (true, "").
Proof. reflexivity. Qed.

Example test_nil_exit_code :
  ShouldRestart mem0 now0 (tracker true) None (Add now0 (2 * Minute))
    ContainerRunning = (false, "exit code is nil").
Proof. reflexivity. Qed.

Example test_desired_status_stopped :
  ShouldRestart mem0 now0 (tracker true) (Some 1) (Add now0 (2 * Minute))
    ContainerStopped = (false, "container's desired status is stopped").
Proof. reflexivity. Qed.

Example test_attempt_reset_period_not_elapsed :
  ShouldRestart mem0 now0 (tracker true) (Some 1) now0 ContainerRunning
    = (false, "attempt reset period has not elapsed").
Proof. reflexivity. Qed.

Example test_attempt_reset_period_not_elapsed_within_one_second :
  ShouldRestart mem0 now0 (tracker true) (Some 1) (Add now0 (- (59 * Second)))
    ContainerRunning = (false, "attempt reset period has not elapsed").
Proof. reflexivity. Qed.

Example formatInt_examples :
  formatInt 0 = "0" /\ formatInt 137 = "137" /\ formatInt (-1) = "-1".
Proof. repeat split. Qed.

(** ** The theorems at the values of the unit tests *)

Lemma ShouldRestart_reset_period_witness :
  minDuration < AttemptResetPeriod (restartPolicy (tracker true)) <= maxDuration
  /\ ShouldRestart mem0 now0 (tracker true) (Some 1)
      (Add now0 (- (59 * Second))) ContainerRunning
    = (false, "attempt reset period has not elapsed")
  /\ ShouldRestart mem0 now0 (tracker true) (Some 1)
      (Add now0 (- (2 * Minute))) ContainerRunning = (true, "")
  /\ ShouldRestart mem0 now0 (tracker true) (Some 1)
      (Add now0 (- Minute)) ContainerRunning = (true, "")
  /\ ShouldRestart mem0 now0 (tracker true) (Some 1) farAhead
      ContainerRunning
    = (false, "attempt reset period has not elapsed").
Proof.
  split; [split; by_eval |]. split; [| split; [| split]].
  - destruct (ShouldRestart_reset_period mem0 now0 (tracker true)
                (Add now0 (- (59 * Second))) 1 ContainerRunning)
      as (Hlt & _ & _ & _); [by_eval .. | split; by_eval |].
    apply Hlt; by_eval.
  - destruct (ShouldRestart_reset_period mem0 now0 (tracker true)
                (Add now0 (- (2 * Minute))) 1 ContainerRunning)
      as (_ & Hge & _ & _); [by_eval .. | split; by_eval |].
    apply Hge. by_eval.
  - destruct (ShouldRestart_reset_period mem0 now0 (tracker true)
                (Add now0 (- Minute)) 1 ContainerRunning)
      as (_ & _ & Heq & _); [by_eval .. | split; by_eval |].
    apply Heq. by_eval.
  - destruct (ShouldRestart_reset_period mem0 now0 (tracker true)
                farAhead 1 ContainerRunning)
      as (Hlt & _ & _ & _); [by_eval .. | split; by_eval |].
    apply Hlt; by_eval.
Defined.

Lemma ShouldRestart_not_enabled_witness :
  Enabled (restartPolicy (tracker false)) = false
  /\ ShouldRestart mem0 now0 (tracker false) (Some 1)
       (Add now0 (2 * Minute)) ContainerRunning
     = (false, "restart policy is not enabled").
Proof.
  split; [by_eval |].
  apply (ShouldRestart_not_enabled mem0 now0 (tracker false)); by_eval.
Defined.

Lemma ShouldRestart_desired_stopped_witness :
  Enabled (restartPolicy (tracker true)) = true
  /\ ShouldRestart mem0 now0 (tracker true) (Some 0)
       (Add now0 (2 * Minute)) ContainerStopped
     = (false, "container's desired status is stopped").
Proof.
  split; [by_eval |].
  apply (ShouldRestart_desired_stopped mem0 now0 (tracker true)); by_eval.
Defined.

Lemma ShouldRestart_nil_exit_code_witness :
  Enabled (restartPolicy (tracker true)) = true
  /\ ContainerRunning ≠ ContainerStopped
  /\ ShouldRestart mem0 now0 (tracker true) None
       (Add now0 (2 * Minute)) ContainerRunning
     = (false, "exit code is nil").
Proof.
  split; [by_eval |]. split; [by_eval |].
  apply (ShouldRestart_nil_exit_code mem0 now0 (tracker true)); by_eval.
Defined.

Lemma ShouldRestart_ignored_exit_code_witness :
  Enabled (restartPolicy (tracker true)) = true
  /\ ContainerRunning ≠ ContainerStopped
  /\ 0 ∈ ignoredCodes mem0 (tracker true)
  /\ ShouldRestart mem0 now0 (tracker true) (Some 0)
       (Add now0 (2 * Minute)) ContainerRunning
     = (false, "exit code 0 should be ignored").
Proof.
  split; [by_eval |]. split; [by_eval |]. split; [by_eval |].
  apply (ShouldRestart_ignored_exit_code mem0 now0 (tracker true)
           (Add now0 (2 * Minute)) 0 ContainerRunning); by_eval.
Defined.

Lemma ShouldRestart_reason_witness :
  ShouldRestart mem0 now0 (tracker true) (Some 0)
      (Add now0 (2 * Minute)) ContainerRunning
    = (false, "exit code 0 should be ignored")
  /\ "exit code 0 should be ignored" ∈ blockingReasons (Some 0).
Proof.
  split; [reflexivity |].
  destruct (ShouldRestart_reason mem0 now0 (tracker true)
              (Add now0 (2 * Minute)) (Some 0) ContainerRunning)
    as [_ [Hyes | (_ & _ & Hin)]]; [discriminate Hyes | exact Hin].
Defined.

Lemma ShouldRestart_count_independent_witness :
  restartPolicy (tracker true) = restartPolicy (RecordRestart (tracker true))
  /\ RestartCount (tracker true) ≠ RestartCount (RecordRestart (tracker true))
  /\ ShouldRestart mem0 now0 (tracker true) (Some 1)
       (Add now0 (- (2 * Minute))) ContainerRunning
     = ShouldRestart mem0 now0 (RecordRestart (tracker true)) (Some 1)
       (Add now0 (- (2 * Minute))) ContainerRunning.
Proof.
  split; [by_eval |]. split; [by_eval |].
  apply ShouldRestart_count_independent; by_eval.
Defined.

Lemma RecordRestart_n_times_witness :
  Z.of_N 999 <= maxInt
  /\ GetRestartCount (N.iter 999 RecordRestart (tracker false)) = 999
  /\ GetRestartCount (N.iter manyRestarts RecordRestart (tracker false))
     = 9223372036854775807.
Proof.
  split; [by_eval |]. split.
  - apply (RecordRestart_n_times (policy false) 999); by_eval.
  - apply (RecordRestart_n_times (policy false) manyRestarts); by_eval.
Defined.

Lemma restart_count_frame_witness :
  in_range (RestartCount (tracker true))
  /\ (exec mem0 (CallShouldRestart now0 (Some 1) now0 ContainerRunning)
        (tracker true)).1 = tracker true
  /\ RestartCount (exec mem0 CallRecordRestart (tracker true)).1 = 1
  /\ RestartCount
       (run mem0
          [ CallRecordRestart; CallGetRestartCount;
            CallShouldRestart now0 (Some 1) now0 ContainerRunning;
            CallRecordRestart ]
          (tracker true)) = 2.
Proof.
  assert (Hr : in_range (RestartCount (tracker true)))
    by (unfold in_range; by_eval).
  destruct (restart_count_frame mem0 CallRecordRestart
              [ CallRecordRestart; CallGetRestartCount;
                CallShouldRestart now0 (Some 1) now0 ContainerRunning;
                CallRecordRestart ]
              (tracker true) Hr)
    as (_ & Hframe & _ & _ & Hstep & Hrun & _).
  split; [exact Hr |]. split; [apply Hframe |]. split.
  - apply Hstep. by_eval.
  - apply Hrun. by_eval.
Defined.

Lemma NewRestartTracker_copies_witness :
  slice_wf mem0 (IgnoredExitCodes (policy true))
  /\ spares (IgnoredExitCodes (policy true))
       [ SetEnabled false; AppendIgnoredExitCode 1 7;
         SetIgnoredExitCodesLit [1; 2]; StoreIgnoredExitCode 0 9 ]
       (policy true) mem0 = true
  /\ is_Some (mutates
                [ SetEnabled false; AppendIgnoredExitCode 1 7;
                  SetIgnoredExitCodesLit [1; 2]; StoreIgnoredExitCode 0 9 ]
                (policy true) mem0)
  /\ (forall p' m',
        mutates
          [ SetEnabled false; AppendIgnoredExitCode 1 7;
            SetIgnoredExitCodesLit [1; 2]; StoreIgnoredExitCode 0 9 ]
          (policy true) mem0 = Some (p', m') ->
        ShouldRestart m' now0 (tracker true) (Some 0) now0 ContainerRunning
          = (false, "exit code 0 should be ignored")).
Proof.
  assert (Hwf : slice_wf mem0 (IgnoredExitCodes (policy true)))
    by (by vm_compute).
  destruct (NewRestartTracker_copies (policy true) mem0 Hwf)
    as (_ & _ & Hseq & _).
  split; [exact Hwf |]. split; [by vm_compute |]. split; [by eexists |].
  intros p' m' Hmus.
  destruct (Hseq _ p' m' Hmus) as [_ Hsame]; [by vm_compute |].
  unfold tracker. rewrite Hsame. reflexivity.
Defined.

(** * Further properties of the package *)

(** ** When [ShouldRestart] approves *)

(** X1: [ShouldRestart] approves exactly when the policy is enabled, the
    desired status is not stopped, there is an exit code, that code is not
    among the ignored ones and [time.Since(startedAt)] has reached the
    reset period. *)
Theorem ShouldRestart_true_iff (m : mem) (now : Time) (rt : RestartTracker)
    (exitCode : option Z) (startedAt : Time)
    (desiredStatus : ContainerStatus) :
  (ShouldRestart m now rt exitCode startedAt desiredStatus).1 = true
  <-> Enabled (restartPolicy rt) = true
      /\ desiredStatus ≠ ContainerStopped
      /\ exists c, exitCode = Some c
           /\ (c ∉ ignoredCodes m rt)
           /\ AttemptResetPeriod (restartPolicy rt) <= Since now startedAt.
Proof.
  unfold ShouldRestart.
  destruct (Enabled (restartPolicy rt)); simpl;
    [| split; [discriminate | intros [? _]; discriminate]].
  case_decide; [split; [discriminate | intros (_ & ? & _); done] |].
  destruct exitCode as [c |];
    [| split; [discriminate | intros (_ & _ & ? & ? & _); discriminate]].
  rewrite rangeIgnoredExitCodes_decide. case_decide.
  - split; [discriminate |]. intros (_ & _ & c' & [= <-] & Hnin & _). done.
  - destruct (Z.ltb_spec (Since now startedAt)
                (AttemptResetPeriod (restartPolicy rt))).
    + split; [discriminate |]. intros (_ & _ & c' & _ & _ & Hle). lia.
    + split; [| done]. intros _. repeat split; [done |]. by exists c.
Qed.

(** X2: a policy without ignored codes -- the slice nil or of length zero,
    whatever memory holds -- ignores no exit code: with the policy enabled
    and the status not stopped every exit code is decided by the reset
    period alone. *)
Theorem ShouldRestart_no_ignored_codes (m : mem) (now : Time)
    (rt : RestartTracker) (c : Z) (startedAt : Time)
    (desiredStatus : ContainerStatus) :
  s_len (IgnoredExitCodes (restartPolicy rt)) = 0%nat ->
  Enabled (restartPolicy rt) = true ->
  desiredStatus ≠ ContainerStopped ->
  ignoredCodes m rt = []
  /\ ShouldRestart m now rt (Some c) startedAt desiredStatus =
       if Since now startedAt <? AttemptResetPeriod (restartPolicy rt)
       then (false, "attempt reset period has not elapsed")
       else (true, "").
Proof.
  intros Hlen Hen Hds.
  assert (He : ignoredCodes m rt = []).
  { unfold ignoredCodes, slice_elems. rewrite Hlen.
    by destruct (s_ptr _) as [[l off] |]. }
  split; [exact He |].
  rewrite (ShouldRestart_eligible m now rt startedAt c desiredStatus Hen Hds).
  rewrite He. case_decide as Hin; [by apply elem_of_nil in Hin | done].
Qed.

(** X3: the decision reads the ignored codes as a set: two trackers with
    the same switch and reset period whose ignored codes have the same
    members, in whatever order and multiplicity and in whatever memories,
    decide alike. *)
Theorem ShouldRestart_ignored_set (m1 m2 : mem) (now : Time)
    (rt1 rt2 : RestartTracker) (exitCode : option Z) (startedAt : Time)
    (desiredStatus : ContainerStatus) :
  Enabled (restartPolicy rt1) = Enabled (restartPolicy rt2) ->
  AttemptResetPeriod (restartPolicy rt1) = AttemptResetPeriod (restartPolicy rt2) ->
  (forall c, c ∈ ignoredCodes m1 rt1 <-> c ∈ ignoredCodes m2 rt2) ->
  ShouldRestart m1 now rt1 exitCode startedAt desiredStatus
    = ShouldRestart m2 now rt2 exitCode startedAt desiredStatus.
Proof.
  intros Hen Hper Hset. unfold ShouldRestart. rewrite Hen, Hper.
  destruct (negb _); [done |]. case_decide; [done |].
  destruct exitCode as [c |]; [| done].
  rewrite !rangeIgnoredExitCodes_decide.
  destruct (decide (c ∈ ignoredCodes m1 rt1)) as [Hin | Hnin];
    destruct (decide (c ∈ ignoredCodes m2 rt2)) as [Hin' | Hnin'];
    try done; exfalso; [apply Hnin' | apply Hnin]; by apply Hset.
Qed.

(** ** The reset period and the clock *)

(** X4: for a reset period that is a duration above the smallest one, the
    check is the one on the exact difference [now - startedAt], whether or
    not that difference fits a duration; the smallest duration as reset
    period never blocks. *)
Theorem ShouldRestart_elapsed (m : mem) (now : Time) (rt : RestartTracker)
    (c : Z) (startedAt : Time) (desiredStatus : ContainerStatus) :
  Enabled (restartPolicy rt) = true ->
  desiredStatus ≠ ContainerStopped ->
  c ∉ ignoredCodes m rt ->
  AttemptResetPeriod (restartPolicy rt) <= maxDuration ->
  (minDuration < AttemptResetPeriod (restartPolicy rt) ->
     ShouldRestart m now rt (Some c) startedAt desiredStatus =
       if now - startedAt <? AttemptResetPeriod (restartPolicy rt)
       then (false, "attempt reset period has not elapsed")
       else (true, ""))
  /\ (AttemptResetPeriod (restartPolicy rt) <= minDuration ->
     ShouldRestart m now rt (Some c) startedAt desiredStatus = (true, "")).
Proof.
  intros Hen Hds Hnin Hmax.
  rewrite (ShouldRestart_eligible m now rt startedAt c desiredStatus Hen Hds).
  case_decide; [done |]. split; intros Hmin.
  - by rewrite Since_ltb.
  - pose proof (Since_range now startedAt).
    destruct (Z.ltb_spec (Since now startedAt)
                (AttemptResetPeriod (restartPolicy rt))); [lia | done].
Qed.

(** X5: time only helps.  An approval stays an approval at every later
    clock reading, and a refusal for another reason than the reset period
    is the same at every clock reading. *)
Theorem ShouldRestart_later (m : mem) (now now' : Time) (rt : RestartTracker)
    (exitCode : option Z) (startedAt : Time)
    (desiredStatus : ContainerStatus) :
  (now <= now' ->
   (ShouldRestart m now rt exitCode startedAt desiredStatus).1 = true ->
   ShouldRestart m now' rt exitCode startedAt desiredStatus = (true, ""))
  /\ ((ShouldRestart m now rt exitCode startedAt desiredStatus).2
        ≠ "attempt reset period has not elapsed" ->
      (ShouldRestart m now rt exitCode startedAt desiredStatus).1 = false ->
      ShouldRestart m now' rt exitCode startedAt desiredStatus
        = ShouldRestart m now rt exitCode startedAt desiredStatus).
Proof.
  unfold ShouldRestart.
  destruct (negb _); [split; [discriminate | done] |].
  case_decide; [split; [discriminate | done] |].
  destruct exitCode as [c |]; [| split; [discriminate | done]].
  destruct (rangeIgnoredExitCodes _ _) as [r |] eqn:Er.
  { rewrite rangeIgnoredExitCodes_decide in Er. case_decide; [| done].
    injection Er as <-. split; [discriminate | done]. }
  destruct (Z.ltb_spec (Since now startedAt)
              (AttemptResetPeriod (restartPolicy rt)));
    destruct (Z.ltb_spec (Since now' startedAt)
                (AttemptResetPeriod (restartPolicy rt)));
    split; simpl; try done; try discriminate.
  intros Hle _. pose proof (Since_mono now now' startedAt Hle). lia.
Qed.

(** ** What the reason tells *)

Lemma list_ascii_of_string_app s1 s2 :
  String.list_ascii_of_string (s1 +:+ s2)
  = (String.list_ascii_of_string s1 ++ String.list_ascii_of_string s2)%list.
Proof. induction s1 as [| a s1 IH]; simpl; [done | by rewrite IH]. Qed.

Lemma string_app_inv_tail s1 s2 t : s1 +:+ t = s2 +:+ t -> s1 = s2.
Proof.
  intros H. apply (f_equal String.list_ascii_of_string) in H.
  rewrite !list_ascii_of_string_app in H. apply app_inv_tail in H.
  rewrite <- (String.string_of_list_ascii_of_string s1),
          <- (String.string_of_list_ascii_of_string s2).
  by rewrite H.
Qed.

(** The message names the exit code: different codes, different messages. *)
Lemma ignoredMessage_inj c1 c2 : ignoredMessage c1 = ignoredMessage c2 -> c1 = c2.
Proof.
  unfold ignoredMessage. intros H.
  apply String.app_inj, string_app_inv_tail in H. by apply formatInt_inj.
Qed.

(** A numeral starts with a digit or the minus sign. *)
Lemma ignoredMessage_not_nil c : ignoredMessage c ≠ "exit code is nil".
Proof.
  unfold ignoredMessage, formatInt.
  destruct (Z.to_int c) as [d | d]; destruct d; discriminate.
Qed.

Lemma ignoredMessage_not_literal c :
  ignoredMessage c ≠ "restart policy is not enabled"
  /\ ignoredMessage c ≠ "container's desired status is stopped"
  /\ ignoredMessage c ≠ "attempt reset period has not elapsed".
Proof. repeat split; discriminate. Qed.

(** Settles the equivalences between a reason and its condition once the
    path through [ShouldRestart] is fixed. *)
Ltac reason_cases :=
  simpl; repeat split; intros;
  repeat match goal with
         | H : _ /\ _ |- _ => destruct H
         | H : exists _, _ |- _ => destruct H
         | H : Some _ = Some _ |- _ => injection H as H; subst
         | H : ignoredMessage _ = ignoredMessage _ |- _ =>
             apply ignoredMessage_inj in H; subst
         | H : ignoredMessage _ = "exit code is nil" |- _ =>
             by apply ignoredMessage_not_nil in H
         | H : "exit code is nil" = ignoredMessage _ |- _ =>
             symmetry in H; by apply ignoredMessage_not_nil in H
         end;
  try done; try discriminate; try lia.

(** X6: the reason tells which check refused.  Each of the five reasons
    is returned exactly under the condition of its check with all earlier
    checks passed, and the "ignored" reason names the exit code the call
    was given. *)
Theorem ShouldRestart_reason_iff (m : mem) (now : Time) (rt : RestartTracker)
    (exitCode : option Z) (startedAt : Time)
    (desiredStatus : ContainerStatus) :
  let d := ShouldRestart m now rt exitCode startedAt desiredStatus in
  (d.2 = "restart policy is not enabled"
     <-> Enabled (restartPolicy rt) = false)
  /\ (d.2 = "container's desired status is stopped"
     <-> Enabled (restartPolicy rt) = true /\ desiredStatus = ContainerStopped)
  /\ (d.2 = "exit code is nil"
     <-> Enabled (restartPolicy rt) = true /\ desiredStatus ≠ ContainerStopped
         /\ exitCode = None)
  /\ (forall c, d.2 = ignoredMessage c
     <-> Enabled (restartPolicy rt) = true /\ desiredStatus ≠ ContainerStopped
         /\ exitCode = Some c /\ c ∈ ignoredCodes m rt)
  /\ (d.2 = "attempt reset period has not elapsed"
     <-> Enabled (restartPolicy rt) = true /\ desiredStatus ≠ ContainerStopped
         /\ exists c, exitCode = Some c /\ (c ∉ ignoredCodes m rt)
              /\ Since now startedAt < AttemptResetPeriod (restartPolicy rt)).
Proof.
  unfold ShouldRestart.
  destruct (Enabled (restartPolicy rt)); simpl; [| reason_cases].
  case_decide as Hds; [reason_cases |].
  destruct exitCode as [c0 |]; [| reason_cases].
  rewrite rangeIgnoredExitCodes_decide. case_decide as Hin; [reason_cases |].
  destruct (Z.ltb_spec (Since now startedAt)
              (AttemptResetPeriod (restartPolicy rt))); reason_cases; eauto.
Qed.

(** ** The count as a machine integer *)

Lemma RecordRestart_iter_policy (n : N) rt :
  restartPolicy (N.iter n RecordRestart rt) = restartPolicy rt.
Proof.
  induction n as [| n IH] using N.peano_ind; [done |].
  by rewrite N.iter_succ.
Qed.

(** X7: the count is arithmetic modulo 2^64.  From a count within [int],
    [n] calls of [RecordRestart] leave the count at [count + n] reduced to
    [int], whatever [n]; the count stays within [int]; one call always
    changes it; and 2^64 calls bring the tracker back to where it was. *)
Theorem RecordRestart_modular (n : N) (rt : RestartTracker) :
  in_range (RestartCount rt) ->
  GetRestartCount (N.iter n RecordRestart rt)
    = wrap (GetRestartCount rt + Z.of_N n)
  /\ in_range (GetRestartCount (N.iter n RecordRestart rt))
  /\ GetRestartCount (RecordRestart rt) ≠ GetRestartCount rt
  /\ N.iter 18446744073709551616 RecordRestart rt = rt.
Proof.
  intros Hr. unfold GetRestartCount.
  split; [by apply RecordRestart_iter |].
  split; [rewrite RecordRestart_iter by done; apply wrap_range |].
  assert (Hfull : wrap (RestartCount rt + Z.of_N 18446744073709551616)
                  = RestartCount rt).
  { unfold wrap, in_range, minInt, maxInt, bits in *.
    replace (RestartCount rt + Z.of_N 18446744073709551616 + 2 ^ (64 - 1))
      with (RestartCount rt + 2 ^ (64 - 1) + 1 * 2 ^ 64) by lia.
    rewrite Z_mod_plus_full, Z.mod_small; lia. }
  split.
  - cbn [RecordRestart RestartCount].
    unfold wrap, in_range, minInt, maxInt, bits in *.
    destruct (Z.eq_dec (RestartCount rt) (2 ^ (64 - 1) - 1)) as [-> | Hne].
    + discriminate.
    + rewrite Z.mod_small; lia.
  - pose proof (RecordRestart_iter 18446744073709551616 rt Hr) as Hc.
    pose proof (RecordRestart_iter_policy 18446744073709551616 rt) as Hp.
    rewrite Hfull in Hc.
    destruct (N.iter _ RecordRestart rt) as [c' p'], rt as [c p].
    simpl in *. by subst.
Qed.

(** ** The array behind the ignored codes *)

(** X8: the tracker made from [p] reads the array of [p]'s ignored codes.
    After the caller stores [v] at a valid index of [p.IgnoredExitCodes]
    the tracker's ignored codes are the old ones with [v] at that index,
    so an exit code [v] is refused as ignored from then on. *)
Theorem NewRestartTracker_sees_store (m m' : mem) (p : RestartPolicy)
    (i v : Z) (now startedAt : Time) (desiredStatus : ContainerStatus) :
  slice_wf m (IgnoredExitCodes p) ->
  slice_store m (IgnoredExitCodes p) i v = Some m' ->
  ignoredCodes m' (NewRestartTracker p)
    = <[Z.to_nat i := v]> (ignoredCodes m (NewRestartTracker p))
  /\ ignoredCodes m' (NewRestartTracker p) !! Z.to_nat i = Some v
  /\ (Enabled p = true -> desiredStatus ≠ ContainerStopped ->
      ShouldRestart m' now (NewRestartTracker p) (Some v) startedAt
        desiredStatus = (false, ignoredMessage v)).
Proof.
  intros Hwf Hst.
  assert (He : ignoredCodes m' (NewRestartTracker p)
               = <[Z.to_nat i := v]> (ignoredCodes m (NewRestartTracker p)))
    by (unfold ignoredCodes; simpl; by apply slice_elems_store).
  assert (Hlen : (Z.to_nat i < length (ignoredCodes m (NewRestartTracker p)))%nat).
  { unfold ignoredCodes, slice_elems, slice_store, slice_wf in *. simpl.
    destruct (andb _ _) eqn:Hi; [| done].
    apply andb_prop in Hi as [Hlo Hhi].
    apply Z.leb_le in Hlo. apply Z.ltb_lt in Hhi.
    destruct (s_ptr (IgnoredExitCodes p)) as [[l off] |]; [| done].
    destruct (m !! l) as [a |]; [| done]. simpl.
    rewrite length_take, length_drop. lia. }
  assert (Hat : ignoredCodes m' (NewRestartTracker p) !! Z.to_nat i = Some v)
    by (rewrite He; by apply list_lookup_insert_eq).
  split; [exact He |]. split; [exact Hat |]. intros Hen Hds.
  rewrite (ShouldRestart_eligible m' now (NewRestartTracker p) startedAt v
             desiredStatus Hen Hds).
  case_decide as Hin; [done |]. exfalso. apply Hin.
  eapply list_elem_of_lookup_2, Hat.
Qed.

(** ** The table test *)

Import restart_test.

Lemma slice_lit_spec (m : mem) (vs : list Z) :
  slice_wf (slice_lit m vs).2 (slice_lit m vs).1
  /\ slice_elems (slice_lit m vs).2 (slice_lit m vs).1 = vs.
Proof.
  unfold slice_lit, slice_wf, slice_elems. simpl.
  rewrite lookup_insert_eq. simpl. split; [lia |]. by rewrite take_ge.
Qed.

(** What a policy literal of the test brings: its fields, its ignored
    codes, and every slice there was left as it was. *)
Lemma newPolicy_spec e (m : mem) p m' :
  newPolicy e m = (p, m') ->
  Enabled p = e
  /\ AttemptResetPeriod p = Minute
  /\ slice_wf m' (IgnoredExitCodes p)
  /\ slice_elems m' (IgnoredExitCodes p) = [0]
  /\ forall s, slice_wf m s ->
       slice_wf m' s /\ slice_elems m' s = slice_elems m s.
Proof.
  unfold newPolicy. intros [= <- <-].
  destruct (slice_lit_spec m [0]) as [Hwf He]. simpl in *.
  repeat split; try done.
  - by apply slice_wf_alloc.
  - by apply slice_elems_alloc.
Qed.

(** *** One entry of the table, by the check that decides it *)

Lemma runCase_tracker (m : mem) now rt tc :
  (runCase m now rt tc).1 = setRestartPolicy rt (rp tc).
Proof. unfold runCase. by destruct (ShouldRestart _ _ _ _ _ _). Qed.

Lemma runCase_asserts (m : mem) now rt tc :
  (runCase m now rt tc).2 =
    asserts tc
      (ShouldRestart m now (setRestartPolicy rt (rp tc))
         (if negb (exitCode tc =? -1) then Some (exitCode tc) else None)
         (startedAt tc) (desiredStatus tc)).
Proof. unfold runCase, asserts. by destruct (ShouldRestart _ _ _ _ _ _). Qed.

Lemma runCase_disabled (m : mem) now rt tc :
  Enabled (rp tc) = false ->
  (runCase m now rt tc).2 = asserts tc (false, "restart policy is not enabled").
Proof.
  intros Hen. rewrite runCase_asserts. unfold ShouldRestart. simpl.
  by rewrite Hen.
Qed.

Lemma runCase_stopped (m : mem) now rt tc :
  Enabled (rp tc) = true ->
  desiredStatus tc = ContainerStopped ->
  (runCase m now rt tc).2
    = asserts tc (false, "container's desired status is stopped").
Proof.
  intros Hen Hds. rewrite runCase_asserts. unfold ShouldRestart. simpl.
  by rewrite Hen, Hds.
Qed.

Lemma runCase_nil (m : mem) now rt tc :
  Enabled (rp tc) = true ->
  desiredStatus tc ≠ ContainerStopped ->
  exitCode tc = -1 ->
  (runCase m now rt tc).2 = asserts tc (false, "exit code is nil").
Proof.
  intros Hen Hds Hc. rewrite runCase_asserts. unfold ShouldRestart. simpl.
  rewrite Hen, Hc. simpl. by case_decide.
Qed.

Lemma runCase_ignored (m : mem) now rt tc :
  Enabled (rp tc) = true ->
  desiredStatus tc ≠ ContainerStopped ->
  exitCode tc ≠ -1 ->
  exitCode tc ∈ slice_elems m (IgnoredExitCodes (rp tc)) ->
  (runCase m now rt tc).2 = asserts tc (false, ignoredMessage (exitCode tc)).
Proof.
  intros Hen Hds Hc Hin. rewrite runCase_asserts.
  destruct (Z.eqb_spec (exitCode tc) (-1)) as [? | _]; [done |]. simpl.
  rewrite (ShouldRestart_eligible m now (setRestartPolicy rt (rp tc))
             (startedAt tc) (exitCode tc) (desiredStatus tc)) by done.
  by case_decide.
Qed.

Lemma runCase_eligible (m : mem) now rt tc :
  Enabled (rp tc) = true ->
  desiredStatus tc ≠ ContainerStopped ->
  exitCode tc ≠ -1 ->
  exitCode tc ∉ slice_elems m (IgnoredExitCodes (rp tc)) ->
  minDuration < AttemptResetPeriod (rp tc) <= maxDuration ->
  (runCase m now rt tc).2 =
    asserts tc
      (if now - startedAt tc <? AttemptResetPeriod (rp tc)
       then (false, "attempt reset period has not elapsed")
       else (true, "")).
Proof.
  intros Hen Hds Hc Hnin Hper. rewrite runCase_asserts.
  destruct (Z.eqb_spec (exitCode tc) (-1)) as [? | _]; [done |]. simpl.
  rewrite (ShouldRestart_eligible m now (setRestartPolicy rt (rp tc))
             (startedAt tc) (exitCode tc) (desiredStatus tc)) by done.
  case_decide; [done |]. simpl. by rewrite Since_ltb.
Qed.

Lemma runCases_cons (m : mem) called i rt tc rest :
  runCases m called i rt (tc :: rest)
  = (runCase m (called i) rt tc).2
    :: runCases m called (S i) (runCase m (called i) rt tc).1 rest.
Proof. simpl. by destruct (runCase m (called i) rt tc). Qed.

(** Runs one policy literal of the test and brings what is known about the
    slices allocated before over to the new memory. *)
Ltac alloc_policy e m :=
  let p := fresh "rp" in
  let m' := fresh "m" in
  let E := fresh "E" in
  let Hpres := fresh "Hpres" in
  destruct (newPolicy e m) as [p m'] eqn:E;
  destruct (newPolicy_spec e m p m' E) as (? & ? & ? & ? & Hpres);
  repeat match goal with
         | Hwf : slice_wf m ?s, He : slice_elems m ?s = _ |- _ =>
             let Hwf' := fresh "Hwf" in
             let He' := fresh "He" in
             destruct (Hpres s Hwf) as [Hwf' He'];
             rewrite <- He' in He; clear Hwf He'
         end;
  clear Hpres E.

(** Side conditions of the lemmas on one entry, for the entries of the
    table. *)
Ltac case_side :=
  simpl;
  first
    [ done
    | match goal with
      | H : slice_elems _ ?s = [0] |- context [slice_elems _ ?s] => rewrite H
      end;
      first [ by apply list_elem_of_singleton
            | by intros ?%list_elem_of_singleton ]
    | match goal with
      | H : AttemptResetPeriod ?p = Minute |- context [AttemptResetPeriod ?p] =>
          rewrite H
      end;
      unfold minDuration, maxDuration; by_eval ].

(** X9: [TestShouldRestart] depends on the clock.  With [built i] the
    reading of the [time.Now()] in entry [i] of its table and [called i]
    the reading when [ShouldRestart] runs on that entry, all its
    assertions hold exactly when the third entry is run no more than a
    minute before, the sixth less than a minute after and the seventh
    less than a second after its own [time.Now()]; the other four
    entries hold at any time. *)
Theorem TestShouldRestart_passes (m : mem) (built called : nat -> Time) :
  TestShouldRestart m built called = replicate 7 true
  <-> built 2%nat - called 2%nat <= Minute
      /\ called 5%nat - built 5%nat < Minute
      /\ called 6%nat - built 6%nat < Second.
Proof.
  unfold TestShouldRestart, testCases.
  alloc_policy false m.
  match goal with |- context [newPolicy false ?m] => alloc_policy false m end.
  do 6 match goal with |- context [newPolicy true ?m] => alloc_policy true m end.
  rewrite !runCases_cons.
  rewrite (runCase_disabled _ (called 0%nat)) by case_side.
  rewrite (runCase_ignored _ (called 1%nat)) by case_side.
  rewrite (runCase_eligible _ (called 2%nat)) by case_side.
  rewrite (runCase_nil _ (called 3%nat)) by case_side.
  rewrite (runCase_stopped _ (called 4%nat)) by case_side.
  rewrite (runCase_eligible _ (called 5%nat)) by case_side.
  rewrite (runCase_eligible _ (called 6%nat)) by case_side.
  cbn [runCases startedAt rp].
  repeat match goal with
         | H : AttemptResetPeriod ?p = Minute |- context [AttemptResetPeriod ?p] =>
             rewrite H
         end.
  unfold Add, Minute, Second, Nanosecond.
  repeat match goal with
         | |- context [?a <? ?b] => destruct (Z.ltb_spec a b)
         end; simpl;
    (split; [intros Heq; first [discriminate Heq | lia]
            | intros ?; first [reflexivity | exfalso; lia]]).
Qed.

(** ** The further properties at the values of the unit tests *)

Lemma ShouldRestart_true_iff_witness :
  Enabled (restartPolicy (tracker true)) = true
  /\ ContainerRunning ≠ ContainerStopped
  /\ exists c, Some 1 = Some c
       /\ (c ∉ ignoredCodes mem0 (tracker true))
       /\ AttemptResetPeriod (restartPolicy (tracker true))
            <= Since now0 (Add now0 (- (2 * Minute))).
Proof.
  apply (ShouldRestart_true_iff mem0 now0 (tracker true) (Some 1)
           (Add now0 (- (2 * Minute))) ContainerRunning).
  reflexivity.
Defined.

Lemma ShouldRestart_no_ignored_codes_witness :
  s_len (IgnoredExitCodes (restartPolicy bare)) = 0%nat
  /\ ignoredCodes mem0 bare = []
  /\ ShouldRestart mem0 now0 bare (Some 0) (Add now0 (- Minute))
       ContainerRunning = (true, "").
Proof.
  split; [reflexivity |].
  destruct (ShouldRestart_no_ignored_codes mem0 now0 bare 0
              (Add now0 (- Minute)) ContainerRunning) as [He Hd];
    [by_eval .. |].
  split; [exact He |]. rewrite Hd. reflexivity.
Defined.

Lemma ShouldRestart_ignored_set_witness :
  ignoredCodes mem01 tracker01 = [0; 1]
  /\ ignoredCodes mem101 tracker101 = [1; 0; 1]
  /\ ShouldRestart mem01 now0 tracker01 (Some 1) longAgo ContainerRunning
     = ShouldRestart mem101 now0 tracker101 (Some 1) longAgo ContainerRunning.
Proof.
  split; [reflexivity |]. split; [reflexivity |].
  apply ShouldRestart_ignored_set; [reflexivity | reflexivity |].
  intros c. change (c ∈ [0; 1] <-> c ∈ [1; 0; 1]).
  rewrite !elem_of_cons. rewrite !elem_of_nil. tauto.
Defined.

Lemma ShouldRestart_elapsed_witness :
  minDuration < AttemptResetPeriod (restartPolicy (tracker true)) <= maxDuration
  /\ maxDuration < now0 - longAgo
  /\ ShouldRestart mem0 now0 (tracker true) (Some 1) longAgo ContainerRunning
     = (true, "")
  /\ ShouldRestart mem0 now0 (tracker true) (Some 1) (Add now0 (2 * Minute))
       ContainerRunning
     = (false, "attempt reset period has not elapsed").
Proof.
  split; [split; by_eval |]. split; [by_eval |]. split.
  - destruct (ShouldRestart_elapsed mem0 now0 (tracker true) 1 longAgo
                ContainerRunning) as [Hd _]; [by_eval .. |].
    rewrite Hd by by_eval. reflexivity.
  - destruct (ShouldRestart_elapsed mem0 now0 (tracker true) 1
                (Add now0 (2 * Minute)) ContainerRunning) as [Hd _];
      [by_eval .. |].
    rewrite Hd by by_eval. reflexivity.
Defined.

Lemma ShouldRestart_later_witness :
  now0 <= Add now0 Second
  /\ (ShouldRestart mem0 now0 (tracker true) (Some 1)
        (Add now0 (- Minute)) ContainerRunning).1 = true
  /\ ShouldRestart mem0 (Add now0 Second) (tracker true) (Some 1)
       (Add now0 (- Minute)) ContainerRunning = (true, "").
Proof.
  split; [by_eval |]. split; [reflexivity |].
  destruct (ShouldRestart_later mem0 now0 (Add now0 Second) (tracker true)
              (Some 1) (Add now0 (- Minute)) ContainerRunning) as [Hlater _].
  apply Hlater; by_eval.
Defined.

Lemma ShouldRestart_reason_iff_witness :
  (ShouldRestart mem0 now0 (tracker true) None now0 ContainerRunning).2
    = "exit code is nil"
  /\ (ShouldRestart mem0 now0 (tracker true) (Some 0) now0
        (ContainerOther 3)).2
    = ignoredMessage 0.
Proof.
  destruct (ShouldRestart_reason_iff mem0 now0 (tracker true) None now0
              ContainerRunning) as (_ & _ & Hnil & _).
  destruct (ShouldRestart_reason_iff mem0 now0 (tracker true) (Some 0) now0
              (ContainerOther 3)) as (_ & _ & _ & Hign & _).
  split.
  - apply Hnil. repeat split; by_eval.
  - apply Hign. repeat split; by_eval.
Defined.

Lemma RecordRestart_modular_witness :
  in_range (RestartCount (tracker false))
  /\ GetRestartCount (N.iter tooManyRestarts RecordRestart (tracker false))
     = wrap 9223372036854775808
  /\ N.iter 18446744073709551616 RecordRestart (tracker false)
     = tracker false.
Proof.
  assert (Hr : in_range (RestartCount (tracker false)))
    by (unfold in_range; by_eval).
  split; [exact Hr |].
  destruct (RecordRestart_modular tooManyRestarts (tracker false) Hr)
    as (Hn & _ & _ & Hfull).
  split; [exact Hn | exact Hfull].
Defined.

Lemma NewRestartTracker_sees_store_witness :
  slice_wf mem0 (IgnoredExitCodes (policy true))
  /\ slice_store mem0 (IgnoredExitCodes (policy true)) 0 7 = Some mem7
  /\ ignoredCodes mem7 (NewRestartTracker (policy true)) !! 0%nat = Some 7
  /\ ShouldRestart mem7 now0 (NewRestartTracker (policy true)) (Some 7)
       longAgo ContainerRunning
     = (false, ignoredMessage 7).
Proof.
  assert (Hwf : slice_wf mem0 (IgnoredExitCodes (policy true)))
    by (by vm_compute).
  assert (Hst : slice_store mem0 (IgnoredExitCodes (policy true)) 0 7
                = Some mem7) by reflexivity.
  destruct (NewRestartTracker_sees_store mem0 mem7 (policy true) 0 7 now0
              longAgo ContainerRunning Hwf Hst) as (_ & Hat & Hd).
  split; [exact Hwf |]. split; [exact Hst |]. split; [exact Hat |].
  apply Hd; by_eval.
Defined.

Lemma TestShouldRestart_passes_witness :
  TestShouldRestart mem0 (fun _ => now0) (fun _ => Add now0 Nanosecond)
    = replicate 7 true.
Proof.
  apply (TestShouldRestart_passes mem0 (fun _ => now0)
           (fun _ => Add now0 Nanosecond)).
  repeat split; by_eval.
Defined.
